(** * Task Manager API: shallow embedding of the authentication, task and
    counter services (src/services, src/api, src/models) and proofs of the
    properties of its specification. *)

From Stdlib Require Import ZArith Lia.
From stdpp Require Import base gmap list strings.

Open Scope Z_scope.

(** ** Python values and errors *)

(** Timestamps ([datetime]) as integer seconds. *)
Abbreviation time := Z.

(** The values a pydantic [model_dump] dictionary can hold in this code. *)
Inductive pyval :=
| PStr (s : string)
| PInt (z : Z)
| PBool (b : bool)
| PTime (t : time)
| PNone.

#[global] Instance pyval_eq_dec : EqDecision pyval.
Proof. solve_decision. Defined.

(** [HTTPException(status_code, detail)], a pydantic validation failure,
    an [AttributeError] no handler catches (the server answers 500), and
    the [ImportError] of a [from ... import ...] statement. *)
Inductive err :=
| HTTPException (status_code : Z) (detail : string)
| ValidationError
| AttributeError (name : string)
| ImportError (name : string).

Inductive result (A : Type) :=
| Ok (a : A)
| Err (e : err).
Arguments Ok {A} a.
Arguments Err {A} e.

(** ** Models (src/models/task.py, src/models/user.py) *)

Inductive Priority := LOW | MEDIUM | HIGH | URGENT.
Inductive TaskStatus := PENDING | IN_PROGRESS | COMPLETED | CANCELLED.

#[global] Instance Priority_eq_dec : EqDecision Priority.
Proof. solve_decision. Defined.
#[global] Instance TaskStatus_eq_dec : EqDecision TaskStatus.
Proof. solve_decision. Defined.

(** A stored document of the [users] collection: [UserInDB.model_dump()]. *)
Record UserInDB := mkUserInDB {
  u_email : string;
  u_username : string;
  u_full_name : option string;
  u_id : Z;
  u_is_active : bool;
  u_is_admin : bool;
  u_created_at : time;
  u_last_login : option time;
  u_hashed_password : string
}.

(** The outward-facing [User] model (no password field). *)
Record User := mkUser {
  email : string;
  username : string;
  full_name : option string;
  id : Z;
  is_active : bool;
  is_admin : bool;
  created_at : time;
  last_login : option time
}.

Record UserCreate := mkUserCreate {
  uc_email : string;
  uc_username : string;
  uc_full_name : option string;
  uc_password : string
}.

(** A stored document of the [tasks] collection. Every key written by
    [Task.model_dump()] is present; a field holding [None] is a stored
    [null]. [t_assigned_to] is [None] when the document has no
    [assigned_to] key ([Task] has no such field). *)
Record task_doc := mkTaskDoc {
  t_title : option string;
  t_description : option string;
  t_priority : option Priority;
  t_due_date : option time;
  t_id : Z;
  t_status : option TaskStatus;
  t_user_id : Z;
  t_created_at : time;
  t_updated_at : time;
  t_assigned_to : option Z
}.

(** The [Task] model: the fields of [TaskBase] and [Task]. *)
Record Task := mkTask {
  tk_title : string;
  tk_description : option string;
  tk_priority : Priority;
  tk_due_date : option time;
  tk_id : Z;
  tk_status : TaskStatus;
  tk_user_id : Z;
  tk_created_at : time;
  tk_updated_at : time
}.

(** [Task( **doc)]: [title] must be a [str] of 1 to 200 characters,
    [description] [None] or at most 2000 characters, [priority] and
    [status] enum members ([null] is rejected); keys that are not fields
    ([_id], [assigned_to]) are ignored. A [str] is a Rocq [string], one
    character per [ascii]. *)
Definition Task_of_doc (d : task_doc) : result Task :=
  match t_title d, t_priority d, t_status d with
  | Some ti, Some pr, Some st =>
      if (1 <=? String.length ti)%nat && (String.length ti <=? 200)%nat &&
         match t_description d with
         | None => true
         | Some de => (String.length de <=? 2000)%nat
         end
      then Ok (mkTask ti (t_description d) pr (t_due_date d) (t_id d) st
                      (t_user_id d) (t_created_at d) (t_updated_at d))
      else Err ValidationError
  | _, _, _ => Err ValidationError
  end.

(** ** The database ([get_db()]): collections [users], [tasks], [counters] *)

Record db := mkDb {
  users : list UserInDB;
  tasks : list task_doc;
  counters : gmap string Z
}.

(** Requests run against the database as a state and error monad. *)
Definition M (A : Type) := db -> result A * db.

Definition ret {A} (a : A) : M A := fun s => (Ok a, s).
Definition raise {A} (e : err) : M A := fun s => (Err e, s).
Definition bindM {A B} (c : M A) (k : A -> M B) : M B :=
  fun s => match c s with
           | (Ok a, s') => k a s'
           | (Err e, s') => (Err e, s')
           end.
Definition gets {A} (f : db -> A) : M A := fun s => (Ok (f s), s).
Definition modify (f : db -> db) : M unit := fun s => (Ok tt, f s).

Notation "'let!' x := c 'in' k" := (bindM c (fun x => k))
  (at level 200, x name, c at level 100, k at level 200).

(** ** Counter allocator: [_get_next_id] of [AuthService] and [TaskService]

    [db.counters.find_one_and_update({"_id": name}, {"$inc": {"seq": 1}},
    upsert=True, return_document=True)]: the upsert creates the counter
    document when absent, so [$inc] starts from 0; the document after the
    update is returned and its [seq] read. *)
Definition next_id (name : string) : M Z :=
  fun s =>
    let seq := default 0 (counters s !! name) + 1 in
    (Ok seq, mkDb (users s) (tasks s) (<[name := seq]> (counters s))).

(** Several allocation calls, one after another: concurrent callers are
    serialised by the atomic find-and-modify of the store, so every
    interleaving of their calls is such a sequence. *)
Fixpoint next_ids (names : list string) : M (list Z) :=
  match names with
  | [] => ret []
  | n :: ns => let! v := next_id n in
               let! vs := next_ids ns in
               ret (v :: vs)
  end.

(** ** Collection helpers *)

(** [update_one] / [find_one_and_update] on a filter: the first matching
    document is rewritten. *)
Fixpoint update_first {A} (p : A -> bool) (f : A -> A) (l : list A) : list A :=
  match l with
  | [] => []
  | x :: xs => if p x then f x :: xs else x :: update_first p f xs
  end.

(** Python dictionaries as association lists in insertion order. *)
Fixpoint dict_get {V} (k : string) (d : list (string * V)) : option V :=
  match d with
  | [] => None
  | (k', v) :: d' => if String.eqb k k' then Some v else dict_get k d'
  end.

(** [model_dump(exclude=ks)]. *)
Definition exclude (ks : list string) (d : list (string * pyval)) :=
  List.filter (fun kv => negb (existsb (String.eqb kv.1) ks)) d.

Definition pyval_of_opt_str (o : option string) : pyval :=
  match o with Some s => PStr s | None => PNone end.
Definition pyval_of_opt_time (o : option time) : pyval :=
  match o with Some t => PTime t | None => PNone end.

(** ** Credential store (src/services/auth_service.py) *)

(** [UserInDB.model_dump()]: fields in declaration order (UserBase, User,
    UserInDB). *)
Definition user_in_db_dump (u : UserInDB) : list (string * pyval) :=
  [("email", PStr (u_email u)); ("username", PStr (u_username u));
   ("full_name", pyval_of_opt_str (u_full_name u)); ("id", PInt (u_id u));
   ("is_active", PBool (u_is_active u)); ("is_admin", PBool (u_is_admin u));
   ("created_at", PTime (u_created_at u));
   ("last_login", pyval_of_opt_time (u_last_login u));
   ("hashed_password", PStr (u_hashed_password u))].

(** [User.model_dump()]: the response body of [response_model=User]. *)
Definition user_dump (u : User) : list (string * pyval) :=
  [("email", PStr (email u)); ("username", PStr (username u));
   ("full_name", pyval_of_opt_str (full_name u)); ("id", PInt (id u));
   ("is_active", PBool (is_active u)); ("is_admin", PBool (is_admin u));
   ("created_at", PTime (created_at u));
   ("last_login", pyval_of_opt_time (last_login u))].

(** [User( **d)]: required fields must be present, defaulted ones may be
    missing, keys that are not fields of [User] are ignored. *)
Definition user_of_dict (d : list (string * pyval)) : result User :=
  let opt_str k := match dict_get k d with
                   | None | Some PNone => Some None
                   | Some (PStr s) => Some (Some s)
                   | _ => None end in
  let opt_time k := match dict_get k d with
                    | None | Some PNone => Some None
                    | Some (PTime t) => Some (Some t)
                    | _ => None end in
  let bool_dflt k b := match dict_get k d with
                       | None => Some b
                       | Some (PBool b') => Some b'
                       | _ => None end in
  match dict_get "email" d, dict_get "username" d, opt_str "full_name",
        dict_get "id" d, bool_dflt "is_active" true, bool_dflt "is_admin" false,
        dict_get "created_at" d, opt_time "last_login" with
  | Some (PStr e), Some (PStr un), Some fn, Some (PInt i), Some act, Some adm,
    Some (PTime c), Some ll => Ok (mkUser e un fn i act adm c ll)
  | _, _, _, _, _, _, _, _ => Err ValidationError
  end.

(** [User( **user_data)] for a stored user document. *)
Definition user_of_db (u : UserInDB) : User :=
  mkUser (u_email u) (u_username u) (u_full_name u) (u_id u) (u_is_active u)
         (u_is_admin u) (u_created_at u) (u_last_login u).

Definition lift {A} (r : result A) : M A := fun s => (r, s).

Definition get_user_by_email (e : string) : M (option UserInDB) :=
  gets (fun s => List.find (fun u => bool_decide (u_email u = e)) (users s)).

Definition get_user_by_username (un : string) : M (option User) :=
  gets (fun s => user_of_db <$>
                 List.find (fun u => bool_decide (u_username u = un)) (users s)).

(** [find_one({"id": v})]: stored ids are ints, and BSON equality never
    equates an int with a value of another type (a string). *)
Definition get_user_by_id (v : pyval) : M (option User) :=
  gets (fun s => user_of_db <$>
                 List.find (fun u => bool_decide (PInt (u_id u) = v)) (users s)).

Definition insert_user (u : UserInDB) (s : db) : db :=
  mkDb (users s ++ [u]) (tasks s) (counters s).

Record TokenPayload := mkTokenPayload { sub : Z; exp : time; iat : time }.

Record Token := mkToken {
  access_token : string;
  token_type : string;
  expires_in : Z
}.

Definition ACCESS_TOKEN_EXPIRE_MINUTES : Z := 60.

Section Credentials.

(** The password-hashing capability ([pwd_context]) and the token encoder
    ([jwt.encode] with the process secret) are external collaborators. *)
Variable hash_password : string -> string.
Variable verify_password : string -> string -> bool.
Variable jwt_encode : TokenPayload -> string.

Definition create_user (ud : UserCreate) (now : time) : M User :=
  let! i := next_id "users" in
  let u := mkUserInDB (uc_email ud) (uc_username ud) (uc_full_name ud) i
                      true false now None (hash_password (uc_password ud)) in
  let! _ := modify (insert_user u) in
  lift (user_of_dict (exclude ["hashed_password"] (user_in_db_dump u))).

Definition set_last_login (i : Z) (t : time) (s : db) : db :=
  mkDb (update_first (fun u => bool_decide (u_id u = i))
          (fun u => mkUserInDB (u_email u) (u_username u) (u_full_name u)
                      (u_id u) (u_is_active u) (u_is_admin u) (u_created_at u)
                      (Some t) (u_hashed_password u))
          (users s))
       (tasks s) (counters s).

Definition authenticate_user (e pw : string) (now : time) : M (option User) :=
  let! o := get_user_by_email e in
  match o with
  | None => ret None
  | Some u =>
      if verify_password pw (u_hashed_password u) then
        let! _ := modify (set_last_login (u_id u) now) in
        ret (Some (user_of_db u))
      else ret None
  end.

Definition create_access_token (u : User) (now : time) : M Token :=
  let expire := now + ACCESS_TOKEN_EXPIRE_MINUTES * 60 in
  ret (mkToken (jwt_encode (mkTokenPayload (id u) expire now)) "bearer"
               (ACCESS_TOKEN_EXPIRE_MINUTES * 60)).

(** [POST /api/auth/register] (src/api/auth.py). *)
Definition register (ud : UserCreate) (now : time) : M User :=
  let! e := get_user_by_email (uc_email ud) in
  match e with
  | Some _ => raise (HTTPException 400 "Email already registered")
  | None =>
      let! un := get_user_by_username (uc_username ud) in
      match un with
      | Some _ => raise (HTTPException 400 "Username already taken")
      | None => create_user ud now
      end
  end.

(** [POST /api/auth/login]. *)
Definition login (e pw : string) (now : time) : M Token :=
  let! o := authenticate_user e pw now in
  match o with
  | None => raise (HTTPException 401 "Invalid email or password")
  | Some u =>
      if negb (is_active u) then raise (HTTPException 403 "User account is disabled")
      else create_access_token u now
  end.

(** [POST /api/auth/token]: the form's [username] is passed as the email. *)
Definition login_for_access_token (form_username form_password : string)
    (now : time) : M Token :=
  let! o := authenticate_user form_username form_password now in
  match o with
  | None => raise (HTTPException 401 "Invalid credentials")
  | Some u => create_access_token u now
  end.

End Credentials.

(** ** Task repository (src/services/task_service.py) *)

(** [TaskUpdate]: each field is [Some v] when it is in the model's set of
    explicitly set fields ([v] may itself be [None]), [None] when unset. *)
Record TaskUpdate := mkTaskUpdate {
  tu_title : option (option string);
  tu_description : option (option string);
  tu_priority : option (option Priority);
  tu_status : option (option TaskStatus);
  tu_due_date : option (option time)
}.

(** Keyword arguments of a [TaskUpdate(...)] call. *)
Inductive task_update_kw :=
| KwTitle (v : option string)
| KwDescription (v : option string)
| KwPriority (v : option Priority)
| KwStatus (v : option TaskStatus)
| KwDueDate (v : option time)
| KwOther (name : string) (v : pyval).

(** [TaskUpdate( **kwargs)]: pydantic's default [extra="ignore"] drops a
    keyword that is not a field of the model. *)
Definition TaskUpdate_set (u : TaskUpdate) (kw : task_update_kw) : TaskUpdate :=
  match kw with
  | KwTitle v => mkTaskUpdate (Some v) (tu_description u) (tu_priority u)
                              (tu_status u) (tu_due_date u)
  | KwDescription v => mkTaskUpdate (tu_title u) (Some v) (tu_priority u)
                                    (tu_status u) (tu_due_date u)
  | KwPriority v => mkTaskUpdate (tu_title u) (tu_description u) (Some v)
                                 (tu_status u) (tu_due_date u)
  | KwStatus v => mkTaskUpdate (tu_title u) (tu_description u) (tu_priority u)
                               (Some v) (tu_due_date u)
  | KwDueDate v => mkTaskUpdate (tu_title u) (tu_description u) (tu_priority u)
                                (tu_status u) (Some v)
  | KwOther _ _ => u
  end.

Definition mk_TaskUpdate (kws : list task_update_kw) : TaskUpdate :=
  fold_left TaskUpdate_set kws (mkTaskUpdate None None None None None).

Definition set_or {A} (o : option A) (old : A) : A :=
  match o with Some v => v | None => old end.

(** [{"$set": update_data}] with [update_data =
    task_data.model_dump(exclude_unset=True)] plus [updated_at]. *)
Definition apply_task_update (u : TaskUpdate) (now : time) (d : task_doc) : task_doc :=
  mkTaskDoc (set_or (tu_title u) (t_title d))
            (set_or (tu_description u) (t_description d))
            (set_or (tu_priority u) (t_priority d))
            (set_or (tu_due_date u) (t_due_date d))
            (t_id d)
            (set_or (tu_status u) (t_status d))
            (t_user_id d) (t_created_at d) now (t_assigned_to d).

Definition has_id (tid : Z) (d : task_doc) : bool := bool_decide (t_id d = tid).

Definition find_task (tid : Z) (s : db) : option task_doc :=
  List.find (has_id tid) (tasks s).

(** [TaskService.get_task]: [db.tasks.find_one({"id": task_id})]. *)
Definition get_task (tid : Z) : M (option task_doc) := gets (find_task tid).

(** [TaskService.update_task]: [find_one_and_update] without upsert
    writes the update and returns the document after it, which
    [Task( **result)] then validates (an error is raised after the write);
    [None] when no document has that id. *)
Definition update_task (tid : Z) (upd : TaskUpdate) (now : time)
    : M (option Task) :=
  fun s =>
    match find_task tid s with
    | None => (Ok None, s)
    | Some d =>
        let s' := mkDb (users s)
                    (update_first (has_id tid) (apply_task_update upd now) (tasks s))
                    (counters s) in
        match Task_of_doc (apply_task_update upd now d) with
        | Ok t => (Ok (Some t), s')
        | Err e => (Err e, s')
        end
    end.

Fixpoint delete_first {A} (p : A -> bool) (l : list A) : list A :=
  match l with
  | [] => []
  | x :: xs => if p x then xs else x :: delete_first p xs
  end.

(** [TaskService.delete_task]: [delete_one({"id": task_id})]. *)
Definition delete_task (tid : Z) : M bool :=
  fun s =>
    match find_task tid s with
    | None => (Ok false, s)
    | Some _ => (Ok true, mkDb (users s) (delete_first (has_id tid) (tasks s))
                               (counters s))
    end.

(** ** Task endpoints (src/api/tasks.py); [cu] is the authenticated user *)

(** Names bound at module level in [src/models/task.py]. *)
Definition task_model_names : list string :=
  ["datetime"; "Enum"; "Optional"; "BaseModel"; "Field"; "Priority"; "TaskStatus";
   "TaskBase"; "TaskCreate"; "TaskUpdate"; "Task"].

(** [from M import n1, n2, ...] binds the names in order and raises
    [ImportError] at the first one [M] does not bind. *)
Definition import_from (bound names : list string) : result unit :=
  match List.find (fun n => negb (existsb (String.eqb n) bound)) names with
  | None => Ok tt
  | Some n => Err (ImportError n)
  end.

(** Line 9 of [src/api/tasks.py], run when the module is imported. *)
Definition tasks_api_import : result unit :=
  import_from task_model_names
    ["Task"; "TaskCreate"; "TaskUpdate"; "TaskAssignment"; "Priority"; "TaskStatus"].

Definition task_not_found {A} : M A := raise (HTTPException 404 "Task not found").
Definition access_denied {A} : M A := raise (HTTPException 403 "Access denied").

(** [task.user_id] where [task] is what [TaskService.get_task] returns:
    the raw [dict] of [find_one], whose keys are not attributes, so the
    access raises [AttributeError]. *)
Definition dict_user_id (task : task_doc) : M Z := raise (AttributeError "user_id").

(** [task.user_id != current_user.id and not current_user.is_admin]. *)
Definition denied_owner_or_admin (cu : User) (owner : Z) : bool :=
  bool_decide (owner <> id cu) && negb (is_admin cu).

Definition get_task_ep (tid : Z) (cu : User) : M task_doc :=
  let! o := get_task tid in
  match o with
  | None => task_not_found
  | Some task =>
      let! owner := dict_user_id task in
      if denied_owner_or_admin cu owner then access_denied else ret task
  end.

Definition update_task_ep (tid : Z) (upd : TaskUpdate) (cu : User) (now : time)
    : M (option Task) :=
  let! o := get_task tid in
  match o with
  | None => task_not_found
  | Some task =>
      let! owner := dict_user_id task in
      if denied_owner_or_admin cu owner then access_denied
      else update_task tid upd now
  end.

Definition delete_task_ep (tid : Z) (cu : User) : M unit :=
  let! o := get_task tid in
  match o with
  | None => task_not_found
  | Some task =>
      let! owner := dict_user_id task in
      if denied_owner_or_admin cu owner then access_denied
      else let! _ := delete_task tid in ret tt
  end.

(** [complete_task]: its check is [task.user_id != current_user.id]. *)
Definition complete_task_ep (tid : Z) (cu : User) (now : time)
    : M (option Task) :=
  let! o := get_task tid in
  match o with
  | None => task_not_found
  | Some task =>
      let! owner := dict_user_id task in
      if bool_decide (owner <> id cu) then access_denied
      else update_task tid (mk_TaskUpdate [KwStatus (Some COMPLETED)]) now
  end.

(** [assign_task]; [assigned_to] is [assignment.assigned_to]. *)
Definition assign_task_ep (tid : Z) (assigned_to : Z) (cu : User) (now : time)
    : M (option Task) :=
  let! o := get_task tid in
  match o with
  | None => task_not_found
  | Some task =>
      let! owner := dict_user_id task in
      if denied_owner_or_admin cu owner then access_denied
      else
        let! target := get_user_by_id (PInt assigned_to) in
        match target with
        | None => raise (HTTPException 404 "Target user not found")
        | Some _ =>
            update_task tid
              (mk_TaskUpdate [KwOther "assigned_to" (PInt assigned_to)]) now
        end
  end.

(** ** Statistics: [TaskService.get_task_statistics] *)

(** [d[k] = d.get(k, 0) + 1] on a dictionary kept in insertion order. *)
Fixpoint dict_incr {K} `{EqDecision K} (k : K) (d : list (K * nat))
    : list (K * nat) :=
  match d with
  | [] => [(k, 1%nat)]
  | (k', n) :: d' => if decide (k = k') then (k', S n) :: d'
                     else (k', n) :: dict_incr k d'
  end.

(** [due_date and due_date < now and status != TaskStatus.COMPLETED]. *)
Definition is_overdue (now : time) (t : task_doc) : bool :=
  match t_due_date t with
  | Some due => (due <? now) && negb (bool_decide (t_status t = Some COMPLETED))
  | None => false
  end.

Record stats := mkStats {
  total : nat;
  by_status : list (option TaskStatus * nat);
  by_priority : list (option Priority * nat);
  overdue_count : nat
}.

Record stats_acc := mkAcc {
  acc_status : list (option TaskStatus * nat);
  acc_priority : list (option Priority * nat);
  acc_overdue : nat
}.

(** One iteration of the [for task in tasks] loop. *)
Definition stats_step (now : time) (a : stats_acc) (t : task_doc) : stats_acc :=
  mkAcc (dict_incr (t_status t) (acc_status a))
        (dict_incr (t_priority t) (acc_priority a))
        (if is_overdue now t then S (acc_overdue a) else acc_overdue a).

Definition STATS_FETCH_LIMIT : nat := 1000.

(** [db.tasks.find({"user_id": user_id}).to_list(length=1000)]. *)
Definition owner_tasks (uid : Z) (s : db) : list task_doc :=
  filter (fun t => t_user_id t = uid) (tasks s).

Definition stats_of (now : time) (ts : list task_doc) : stats :=
  let a := fold_left (stats_step now) ts (mkAcc [] [] 0%nat) in
  mkStats (length ts) (acc_status a) (acc_priority a) (acc_overdue a).

Definition get_task_statistics (uid : Z) (now : time) : M stats :=
  gets (fun s => stats_of now (take STATS_FETCH_LIMIT (owner_tasks uid s))).

(** ** More of the task service and endpoints *)

(** [TaskCreate] (fields of [TaskBase]). *)
Record TaskCreate := mkTaskCreate {
  tc_title : string;
  tc_description : option string;
  tc_priority : Priority;
  tc_due_date : option time
}.

Definition insert_task (t : task_doc) (s : db) : db :=
  mkDb (users s) (tasks s ++ [t]) (counters s).

(** [TaskService.create_task]: [Task(id=..., **task_data.model_dump(),
    user_id=..., status=PENDING, created_at=now, updated_at=now)] is
    validated after the id is drawn; [insert_one(task.model_dump())]
    stores its fields (no [assigned_to] key). *)
Definition create_task (td : TaskCreate) (uid : Z) (now : time) : M Task :=
  let! i := next_id "tasks" in
  let d := mkTaskDoc (Some (tc_title td)) (tc_description td)
                     (Some (tc_priority td)) (tc_due_date td) i (Some PENDING)
                     uid now now None in
  let! t := lift (Task_of_doc d) in
  let! _ := modify (insert_task d) in
  ret t.

(** The query of [get_user_tasks]: [{"user_id": ...}] plus [status] and
    [priority] when given (an enum member is always truthy). *)
Definition task_query (uid : Z) (st : option TaskStatus) (pr : option Priority)
    (t : task_doc) : bool :=
  bool_decide (t_user_id t = uid) &&
  match st with None => true | Some v => bool_decide (t_status t = Some v) end &&
  match pr with None => true | Some v => bool_decide (t_priority t = Some v) end.

(** [TaskService.get_user_tasks]: [find(query).skip(skip).limit(limit)] read
    with [to_list(length=limit)]. *)
Definition get_user_tasks (uid : Z) (st : option TaskStatus) (pr : option Priority)
    (skip limit : nat) : M (list task_doc) :=
  gets (fun s => take limit (drop skip (List.filter (task_query uid st pr) (tasks s)))).

(** [TaskService.get_overdue_tasks]: [{"user_id": ..., "status": {"$ne":
    COMPLETED}, "due_date": {"$lt": now}}] read with [to_list(length=100)];
    [$lt] on a date matches no [null] due date, [$ne] matches a [null]
    status. *)
Definition get_overdue_tasks (uid : Z) (now : time) : M (list task_doc) :=
  gets (fun s => take 100 (List.filter
                   (fun t => bool_decide (t_user_id t = uid) && is_overdue now t)
                   (tasks s))).

(** [d.get(k, 0)] on a counting dictionary. *)
Fixpoint dict_count {K} `{EqDecision K} (k : K) (d : list (K * nat)) : nat :=
  match d with
  | [] => 0%nat
  | (k', n) :: d' => if decide (k = k') then n else dict_count k d'
  end.

Record summary := mkSummary {
  sm_total : nat;
  sm_pending : nat;
  sm_in_progress : nat;
  sm_completed : nat;
  sm_overdue : nat
}.

(** [TaskService.get_tasks_summary]. *)
Definition get_tasks_summary (uid : Z) (now : time) : M summary :=
  let! st := get_task_statistics uid now in
  ret (mkSummary (total st) (dict_count (Some PENDING) (by_status st))
                 (dict_count (Some IN_PROGRESS) (by_status st))
                 (dict_count (Some COMPLETED) (by_status st)) (overdue_count st)).

(** [{**a, **b}]-style merge of two partial updates: a field set in the
    later one wins. *)
Definition merge_opt {A} (later earlier : option A) : option A :=
  match later with Some v => Some v | None => earlier end.

Definition merge_update (u1 u2 : TaskUpdate) : TaskUpdate :=
  mkTaskUpdate (merge_opt (tu_title u2) (tu_title u1))
               (merge_opt (tu_description u2) (tu_description u1))
               (merge_opt (tu_priority u2) (tu_priority u1))
               (merge_opt (tu_status u2) (tu_status u1))
               (merge_opt (tu_due_date u2) (tu_due_date u1)).

(** ** Authentication guard: [get_current_user], [/me], [/refresh] *)

(** What [jwt.decode(token, SECRET_KEY, algorithms=[ALGORITHM])] yields at
    the current time: a [JWTError] (bad signature, malformed, expired, or a
    claim check failed), or a payload whose [sub] may be missing.
    python-jose checks that a present [sub] is a [str] and raises
    [JWTClaimsError], a [JWTError], otherwise; so a returned [sub] is a
    string. *)
Inductive decoded :=
| DecodeError
| Payload (sub : option string).

Section Guard.

Variable jwt_decode : time -> string -> decoded.
Variable jwt_encode : TokenPayload -> string.

Definition credentials_exception {A} : M A :=
  raise (HTTPException 401 "Could not validate credentials").

Definition get_current_user (now : time) (token : string) : M User :=
  match jwt_decode now token with
  | DecodeError | Payload None => credentials_exception
  | Payload (Some user_id) =>
      let! u := get_user_by_id (PStr user_id) in
      match u with
      | None => credentials_exception
      | Some u => ret u
      end
  end.

(** [GET /api/auth/me]. *)
Definition get_current_user_info (now : time) (token : string) : M User :=
  get_current_user now token.

(** [POST /api/auth/refresh]. *)
Definition refresh_token (now : time) (token : string) : M Token :=
  let! u := get_current_user now token in
  create_access_token jwt_encode u now.

End Guard.

(** ** Invariants of the collections *)

(** The [tasks] counter is not negative, task ids are unique and none
    exceeds the counter. *)
Definition tasks_inv (s : db) : Prop :=
  0 <= default 0 (counters s !! "tasks") /\
  NoDup (List.map t_id (tasks s)) /\
  Forall (fun t => t_id t <= default 0 (counters s !! "tasks")) (tasks s).

(** Emails, usernames and ids of users are unique and no id exceeds the
    [users] counter. *)
Definition users_inv (s : db) : Prop :=
  NoDup (List.map u_email (users s)) /\ NoDup (List.map u_username (users s)) /\
  NoDup (List.map u_id (users s)) /\
  Forall (fun u => u_id u <= default 0 (counters s !! "users")) (users s).

(** ** Helpers for the statements *)

(** The contiguous range [a, a+1, ..., a+k-1]. *)
Definition zrange (a : Z) (k : nat) : list Z :=
  map (fun i => a + Z.of_nat i) (seq 0 k).

(** The values returned to the calls for name [n] in a run of calls. *)
Definition values_for (n : string) (names : list string) (vs : list Z) : list Z :=
  map snd (filter (fun p => p.1 = n) (zip names vs)).

(** The document [create_user] persists for [ud] with id [i] at [now]. *)
Definition stored_user (hash_password : string -> string) (ud : UserCreate)
    (i : Z) (now : time) : UserInDB :=
  mkUserInDB (uc_email ud) (uc_username ud) (uc_full_name ud) i true false now
             None (hash_password (uc_password ud)).

(** A task document with only its [updated_at] replaced. *)
Definition with_updated_at (now : time) (d : task_doc) : task_doc :=
  mkTaskDoc (t_title d) (t_description d) (t_priority d) (t_due_date d) (t_id d)
            (t_status d) (t_user_id d) (t_created_at d) now (t_assigned_to d).

Definition count_where {A} (p : A -> bool) (l : list A) : nat :=
  length (List.filter p l).

(** A task document as [create_task] writes it, with a status set later. *)
Definition mk_task (i uid : Z) (st : TaskStatus) (pr : Priority)
    (due : option time) : task_doc :=
  mkTaskDoc (Some "T") None (Some pr) due i (Some st) uid 0 0 None.

(** The document [create_task] builds with id [i]. *)
Definition new_task_doc (td : TaskCreate) (i uid : Z) (now : time) : task_doc :=
  mkTaskDoc (Some (tc_title td)) (tc_description td) (Some (tc_priority td))
            (tc_due_date td) i (Some PENDING) uid now now None.

(** Every field of a stored user except [last_login]. *)
Definition user_key (u : UserInDB) :=
  (u_email u, u_username u, u_full_name u, u_id u, u_is_active u, u_is_admin u,
   u_created_at u, u_hashed_password u).

Definition has_email (e : string) (u : UserInDB) : bool := bool_decide (u_email u = e).
Definition has_user_id (i : Z) (u : UserInDB) : bool := bool_decide (u_id u = i).

(** Concrete inputs. *)
Definition demo_hash (p : string) : string := "bcrypt$" ++ p.
Definition demo_verify (p h : string) : bool := String.eqb (demo_hash p) h.
Definition demo_encode (p : TokenPayload) : string := "jwt".
Definition empty_db : db := mkDb [] [] ∅.

Definition alice : UserCreate := mkUserCreate "alice@x.com" "alice" None "Secret123!".
Definition alice_again : UserCreate :=
  mkUserCreate "alice@x.com" "alice2" None "Other123!".

Definition owner_doc : UserInDB :=
  mkUserInDB "owner@x.com" "owner" None 1 true false 0 None (demo_hash "Secret123!").
Definition admin_doc : UserInDB :=
  mkUserInDB "root@x.com" "root" None 2 true true 0 None (demo_hash "Secret123!").
Definition inactive_doc : UserInDB :=
  mkUserInDB "bob@x.com" "bob" None 3 false false 0 None (demo_hash "Secret123!").

Definition task1 : task_doc := mk_task 1 1 PENDING MEDIUM None.
Definition demo_db : db := mkDb [owner_doc; admin_doc; inactive_doc] [task1] ∅.

(** [demo_db] with the counters its ids were allocated from. *)
Definition demo_db_counted : db :=
  mkDb (users demo_db) (tasks demo_db) (<["tasks" := 1]> (<["users" := 3]> ∅)).

(** [n] tasks of owner [uid], ids [1..n]. *)
Definition many_tasks (uid : Z) (n : nat) : list task_doc :=
  map (fun i => mk_task (Z.of_nat i + 1) uid PENDING MEDIUM None) (seq 0 n).

(** * Properties *)

(** ** Counter allocator *)

Lemma zrange_S a k : zrange a (S k) = a :: zrange (a + 1) k.
Proof.
  unfold zrange. simpl. f_equal; [lia|].
  rewrite <- seq_shift, map_map. apply map_ext. intros i. lia.
Qed.

Lemma zrange_bounds a k x : In x (zrange a k) -> a <= x < a + Z.of_nat k.
Proof.
  unfold zrange. rewrite in_map_iff. intros (i & <- & Hi).
  apply in_seq in Hi. lia.
Qed.

Lemma zrange_NoDup a k : NoDup (zrange a k).
Proof.
  revert a. induction k as [|k IH]; intros a.
  - constructor.
  - rewrite zrange_S. constructor; [|apply IH].
    intros Hin. apply list_elem_of_In, zrange_bounds in Hin. lia.
Qed.

Lemma next_id_run n s :
  next_id n s = (Ok (default 0 (counters s !! n) + 1),
                 mkDb (users s) (tasks s)
                      (<[n := default 0 (counters s !! n) + 1]> (counters s))).
Proof. reflexivity. Qed.

(** C3: [next_id] returns the post-increment value of the counter of its
    entity name, an absent counter counting as 0 (so the first value is 1).
    For every run of calls, also interleaved across entity names, the values
    returned for one name [n] are the contiguous range that starts just
    after the counter's initial value, one value per call, with no
    duplicates; the counter ends at the last value returned. *)
Theorem next_id_contiguous (names : list string) (s : db) :
  exists vs, fst (next_ids names s) = Ok vs /\ length vs = length names /\
  forall n,
    let k := length (filter (fun m => m = n) names) in
    values_for n names vs = zrange (default 0 (counters s !! n) + 1) k /\
    NoDup (values_for n names vs) /\
    default 0 (counters (snd (next_ids names s)) !! n) =
      default 0 (counters s !! n) + Z.of_nat k.
Proof.
  revert s. induction names as [|n0 ns IH]; intros s.
  - exists []. simpl. repeat split; [constructor | lia].
  - set (s1 := mkDb (users s) (tasks s)
                   (<[n0 := default 0 (counters s !! n0) + 1]> (counters s))).
    destruct (IH s1) as (vs & Hvs & Hlen & Hn).
    assert (Hstep : next_ids (n0 :: ns) s =
              (match fst (next_ids ns s1) with
               | Ok a => Ok (default 0 (counters s !! n0) + 1 :: a)
               | Err e => Err e end, snd (next_ids ns s1))).
    { simpl. unfold bindM at 1. rewrite next_id_run. fold s1.
      unfold bindM. destruct (next_ids ns s1) as [[a|e] s2]; reflexivity. }
    rewrite Hstep, Hvs. simpl.
    exists (default 0 (counters s !! n0) + 1 :: vs).
    split; [reflexivity|]. split; [simpl; lia|].
    intros n. specialize (Hn n). simpl in Hn. destruct Hn as (Hv & _ & Hc).
    unfold values_for in *. simpl. rewrite !filter_cons. simpl.
    destruct (decide (n0 = n)) as [<-|Hne].
    + rewrite lookup_insert_eq in Hv, Hc. simpl in Hv, Hc. simpl.
      rewrite Hv, <- zrange_S. split; [reflexivity|].
      split; [apply zrange_NoDup|]. lia.
    + rewrite lookup_insert_ne in Hv, Hc by congruence.
      rewrite Hv. split; [reflexivity|]. split; [apply zrange_NoDup|]. exact Hc.
Qed.

(** ** Credential store *)

Section CredentialProofs.

Variable hash_password : string -> string.
Variable verify_password : string -> string -> bool.
Variable jwt_encode : TokenPayload -> string.

Lemma create_user_run ud now s :
  let i := default 0 (counters s !! "users") + 1 in
  create_user hash_password ud now s =
    (Ok (user_of_db (stored_user hash_password ud i now)),
     mkDb (users s ++ [stored_user hash_password ud i now]) (tasks s)
          (<[ "users" := i ]> (counters s))).
Proof. destruct ud as [e un [fn|] pw]; reflexivity. Qed.

Lemma register_run_ok ud now s u s1 :
  register hash_password ud now s = (Ok u, s1) ->
  exists su, users s1 = users s ++ [su] /\ u_email su = uc_email ud /\
             u_username su = uc_username ud.
Proof.
  unfold register, get_user_by_email, get_user_by_username, gets, bindM.
  destruct (List.find _ (users s)); [discriminate|].
  destruct (List.find _ (users s)); [discriminate|].
  simpl. rewrite create_user_run. intros [= _ <-].
  eexists. split; [reflexivity|]. split; reflexivity.
Qed.

Lemma find_some_of_in {A} (p : A -> bool) (l : list A) x :
  In x l -> p x = true -> exists y, List.find p l = Some y.
Proof.
  intros Hin Hp. destruct (List.find p l) as [y|] eqn:Hf; [eauto|].
  rewrite (find_none p l Hf x Hin) in Hp. discriminate.
Qed.

(** C6: for every registration input, [create_user] succeeds; the user it
    returns (the body of the registration response) has no
    [hashed_password] and no [password] field, while the persisted record
    holds the digest of the password. *)
Theorem create_user_strips_digest (ud : UserCreate) (now : time) (s : db) :
  exists u s', create_user hash_password ud now s = (Ok u, s') /\
    ("hashed_password" ∉ (user_dump u).*1) /\ ("password" ∉ (user_dump u).*1) /\
    exists su, users s' = users s ++ [su] /\
      dict_get "hashed_password" (user_in_db_dump su) =
        Some (PStr (hash_password (uc_password ud))).
Proof.
  rewrite create_user_run. do 2 eexists. split; [reflexivity|].
  split; [simpl; set_solver|]. split; [simpl; set_solver|].
  eexists. split; reflexivity.
Qed.

(** C7: once a registration has been persisted, a second registration with
    the same email or the same username fails with status 400 (the
    [Conflict] of the spec) and leaves the database, hence the users,
    unchanged; with the same email the detail is "Email already
    registered". *)
Theorem register_duplicate_conflict (ud1 ud2 : UserCreate) (now1 now2 : time)
    (s s1 : db) (u : User) :
  register hash_password ud1 now1 s = (Ok u, s1) ->
  uc_email ud2 = uc_email ud1 \/ uc_username ud2 = uc_username ud1 ->
  exists detail,
    register hash_password ud2 now2 s1 = (Err (HTTPException 400 detail), s1) /\
    (uc_email ud2 = uc_email ud1 -> detail = "Email already registered").
Proof.
  intros Hreg Hsame. destruct (register_run_ok _ _ _ _ _ Hreg)
    as (su & Hus & He & Hu).
  assert (Hin : In su (users s1)) by (rewrite Hus; apply in_or_app; simpl; auto).
  unfold register, get_user_by_email, get_user_by_username, gets, bindM.
  destruct (List.find (fun v => bool_decide (u_email v = uc_email ud2)) (users s1))
    as [v|] eqn:Hfe.
  - exists "Email already registered". split; reflexivity.
  - assert (Hne : uc_email ud2 <> uc_email ud1).
    { intros Heq. destruct (find_some_of_in
        (fun v => bool_decide (u_email v = uc_email ud2)) _ su Hin)
        as [y Hy]; [apply bool_decide_eq_true; congruence|congruence]. }
    destruct Hsame as [Heq|Heq]; [contradiction|].
    destruct (find_some_of_in
        (fun v => bool_decide (u_username v = uc_username ud2)) _ su Hin)
      as [y Hy]; [apply bool_decide_eq_true; congruence|].
    rewrite Hy. exists "Username already taken". split; [reflexivity|].
    intros; contradiction.
Qed.

End CredentialProofs.

Lemma register_duplicate_conflict_witness :
  exists detail,
    register demo_hash alice_again 1 (snd (register demo_hash alice 0 empty_db)) =
      (Err (HTTPException 400 detail), snd (register demo_hash alice 0 empty_db)) /\
    (uc_email alice_again = uc_email alice -> detail = "Email already registered").
Proof.
  apply (register_duplicate_conflict demo_hash alice alice_again 0 1 empty_db
           (snd (register demo_hash alice 0 empty_db))
           (user_of_db (stored_user demo_hash alice 1 0))).
  - vm_compute. reflexivity.
  - left. reflexivity.
Defined.

(** C4: at a stored user whose account is disabled ([is_active = false]),
    with the correct password, [POST /api/auth/login] fails with 403 but
    [POST /api/auth/token] issues a token; with a wrong password both fail
    with 401. *)
Theorem token_endpoint_skips_active_check :
  fst (login demo_verify demo_encode "bob@x.com" "Secret123!" 5 demo_db) =
    Err (HTTPException 403 "User account is disabled") /\
  fst (login_for_access_token demo_verify demo_encode "bob@x.com" "Secret123!" 5
         demo_db) = Ok (mkToken "jwt" "bearer" 3600) /\
  fst (login demo_verify demo_encode "bob@x.com" "wrong" 5 demo_db) =
    Err (HTTPException 401 "Invalid email or password") /\
  fst (login_for_access_token demo_verify demo_encode "bob@x.com" "wrong" 5
         demo_db) = Err (HTTPException 401 "Invalid credentials").
Proof. vm_compute. repeat split. Qed.

(** ** Task endpoints *)

(** C1: [src/api/tasks.py] cannot be imported: its line 9 asks
    [src/models/task.py] for [TaskAssignment], which that module does not
    bind. Its handlers, moreover, read [task.user_id] on the [dict] that
    [TaskService.get_task] returns: for an existing task, reading,
    updating, deleting and completing it raise [AttributeError] (answered
    500) before any owner or admin check and without writing, whoever the
    caller is (owner, admin or other); none succeeds and none answers 403.
    For an absent task each answers 404. *)
Theorem task_handlers_never_authorize (tid : Z) (cu : User) (upd : TaskUpdate)
    (now : time) (s : db) :
  tasks_api_import = Err (ImportError "TaskAssignment") /\
  match find_task tid s with
  | None =>
      get_task_ep tid cu s = (Err (HTTPException 404 "Task not found"), s) /\
      update_task_ep tid upd cu now s = (Err (HTTPException 404 "Task not found"), s) /\
      delete_task_ep tid cu s = (Err (HTTPException 404 "Task not found"), s) /\
      complete_task_ep tid cu now s = (Err (HTTPException 404 "Task not found"), s)
  | Some _ =>
      get_task_ep tid cu s = (Err (AttributeError "user_id"), s) /\
      update_task_ep tid upd cu now s = (Err (AttributeError "user_id"), s) /\
      delete_task_ep tid cu s = (Err (AttributeError "user_id"), s) /\
      complete_task_ep tid cu now s = (Err (AttributeError "user_id"), s)
  end.
Proof.
  split; [vm_compute; reflexivity|].
  unfold get_task_ep, update_task_ep, delete_task_ep, complete_task_ep, get_task,
    gets, bindM, dict_user_id, raise.
  destruct (find_task tid s); repeat split.
Qed.

(** C5: [src/api/tasks.py] cannot be imported ([TaskAssignment] is not
    bound by [src/models/task.py]), and its [assign_task] handler, for an
    existing task, raises [AttributeError] on [task.user_id] before it
    looks the target user up: whoever the caller and whatever the target
    (existing or not), it answers 500 and writes nothing, so no
    [assigned_to] is ever stored and an unknown target does not give 404.
    An absent task gives 404. *)
Theorem assign_task_never_assigns (tid a : Z) (cu : User) (now : time) (s : db) :
  tasks_api_import = Err (ImportError "TaskAssignment") /\
  match find_task tid s with
  | None => assign_task_ep tid a cu now s = (Err (HTTPException 404 "Task not found"), s)
  | Some _ => assign_task_ep tid a cu now s = (Err (AttributeError "user_id"), s)
  end.
Proof.
  split; [vm_compute; reflexivity|].
  unfold assign_task_ep, get_task, gets, bindM, dict_user_id, raise.
  destruct (find_task tid s); reflexivity.
Qed.

(** ** Partial update *)

Lemma apply_task_update_empty now d :
  apply_task_update (mk_TaskUpdate []) now d = with_updated_at now d.
Proof. destruct d; reflexivity. Qed.

Lemma update_first_ext {A} (p : A -> bool) (f g : A -> A) (l : list A) :
  (forall x, f x = g x) -> update_first p f l = update_first p g l.
Proof.
  intros Hfg. induction l as [|x l IH]; simpl; [reflexivity|].
  rewrite Hfg, IH. reflexivity.
Qed.

Lemma find_update_first {A} (p : A -> bool) (f : A -> A) (l : list A) :
  (forall x, p (f x) = p x) ->
  List.find p (update_first p f l) = f <$> List.find p l.
Proof.
  intros Hf. induction l as [|x l IH]; simpl; [reflexivity|].
  destruct (p x) eqn:Hp; simpl.
  - rewrite Hf, Hp. reflexivity.
  - rewrite Hp. exact IH.
Qed.

(** C8: [update_task] with a [TaskUpdate()] in which no field is set
    rewrites the stored task [tid] into the same document with only
    [updated_at] replaced by the current time and touches no other
    collection; it returns that document validated as a [Task] (a stored
    document with a [null] title, priority or status fails the validation,
    after the write). When no task has id [tid] it returns [None] and
    changes nothing. *)
Theorem update_task_empty_only_updated_at (tid : Z) (now : time) (s : db) :
  match find_task tid s with
  | None => update_task tid (mk_TaskUpdate []) now s = (Ok None, s)
  | Some d =>
      fst (update_task tid (mk_TaskUpdate []) now s) =
        match Task_of_doc (with_updated_at now d) with
        | Ok t => Ok (Some t)
        | Err e => Err e
        end /\
      find_task tid (snd (update_task tid (mk_TaskUpdate []) now s)) =
        Some (with_updated_at now d) /\
      tasks (snd (update_task tid (mk_TaskUpdate []) now s)) =
        update_first (has_id tid) (with_updated_at now) (tasks s) /\
      users (snd (update_task tid (mk_TaskUpdate []) now s)) = users s /\
      counters (snd (update_task tid (mk_TaskUpdate []) now s)) = counters s
  end.
Proof.
  unfold update_task. cbv zeta.
  destruct (find_task tid s) as [d|] eqn:Hf; [|reflexivity].
  rewrite (update_first_ext _ _ (with_updated_at now)), apply_task_update_empty
    by apply apply_task_update_empty.
  assert (Hfind : find_task tid (mkDb (users s)
                    (update_first (has_id tid) (with_updated_at now) (tasks s))
                    (counters s)) = Some (with_updated_at now d)).
  { unfold find_task in *. simpl.
    rewrite find_update_first by (intros []; reflexivity).
    rewrite Hf. reflexivity. }
  destruct (Task_of_doc (with_updated_at now d)); cbn [fst snd];
    (split; [reflexivity|]); (split; [exact Hfind|]); repeat split.
Qed.

(** ** Statistics *)

Lemma dict_count_incr {K} `{EqDecision K} (k k' : K) (d : list (K * nat)) :
  dict_count k (dict_incr k' d) =
    (dict_count k d + if decide (k = k') then 1 else 0)%nat.
Proof.
  induction d as [|[k0 n] d IH]; simpl.
  - destruct (decide (k = k')); simpl; lia.
  - destruct (decide (k' = k0)) as [<-|Hne]; simpl.
    + destruct (decide (k = k')); simpl; lia.
    + rewrite IH. destruct (decide (k = k0)) as [->|Hk]; [|reflexivity].
      destruct (decide (k0 = k')); [congruence|lia].
Qed.

Lemma count_where_cons {A} (p : A -> bool) x l :
  count_where p (x :: l) = ((if p x then 1 else 0) + count_where p l)%nat.
Proof. unfold count_where. simpl. destruct (p x); reflexivity. Qed.

Lemma stats_fold_counts now ks kp (ts : list task_doc) (a : stats_acc) :
  let a' := fold_left (stats_step now) ts a in
  dict_count ks (acc_status a') =
    (dict_count ks (acc_status a) +
     count_where (fun t => bool_decide (t_status t = ks)) ts)%nat /\
  dict_count kp (acc_priority a') =
    (dict_count kp (acc_priority a) +
     count_where (fun t => bool_decide (t_priority t = kp)) ts)%nat /\
  acc_overdue a' = (acc_overdue a + count_where (is_overdue now) ts)%nat.
Proof.
  revert a. induction ts as [|t ts IH]; intros a; simpl.
  - unfold count_where. simpl. lia.
  - destruct (IH (stats_step now a t)) as (H1 & H2 & H3).
    rewrite H1, H2, H3, !count_where_cons. unfold stats_step; simpl.
    rewrite (dict_count_incr ks (t_status t)), (dict_count_incr kp (t_priority t)).
    destruct (decide (ks = t_status t)), (decide (kp = t_priority t));
      repeat case_bool_decide; try congruence;
      destruct (is_overdue now t); simpl; repeat split; lia.
Qed.

(** X: the statistics of owner [uid] are computed from the
    owner's first 1000 stored tasks [ts]: [total] is the length of [ts],
    [by_status] and [by_priority] map every key to the number of tasks of
    [ts] with that status or priority, and [overdue_count] is the number of
    tasks of [ts] with a due date before [now] whose status is not
    [completed]. On the three tasks [pending, due yesterday], [completed,
    due yesterday], [in_progress, due tomorrow] it yields [total = 3],
    [by_status = {pending: 1, completed: 1, in_progress: 1}] and
    [overdue_count = 1]. *)
Theorem task_statistics_counts (uid : Z) (now : time) (s : db) :
  (let ts := take STATS_FETCH_LIMIT (owner_tasks uid s) in
   exists st, fst (get_task_statistics uid now s) = Ok st /\
     total st = length ts /\
     (forall k, dict_count k (by_status st) =
                count_where (fun t => bool_decide (t_status t = k)) ts) /\
     (forall k, dict_count k (by_priority st) =
                count_where (fun t => bool_decide (t_priority t = k)) ts) /\
     overdue_count st = count_where (is_overdue now) ts) /\
  (forall p1 p2 p3 : Priority,
   exists st,
     fst (get_task_statistics uid now
            (mkDb [] [mk_task 1 uid PENDING p1 (Some (now - 86400));
                      mk_task 2 uid COMPLETED p2 (Some (now - 86400));
                      mk_task 3 uid IN_PROGRESS p3 (Some (now + 86400))] ∅)) =
       Ok st /\
     total st = 3%nat /\
     by_status st = [(Some PENDING, 1%nat); (Some COMPLETED, 1%nat);
                     (Some IN_PROGRESS, 1%nat)] /\
     overdue_count st = 1%nat).
Proof.
  split.
  - intros ts. eexists. split; [reflexivity|]. simpl.
    split; [reflexivity|]. split; [|split].
    + intros k. apply (stats_fold_counts now k None ts (mkAcc [] [] 0)).
    + intros k. apply (stats_fold_counts now None k ts (mkAcc [] [] 0)).
    + apply (stats_fold_counts now None None ts (mkAcc [] [] 0)).
  - intros p1 p2 p3. eexists. split; [reflexivity|].
    unfold stats_of, owner_tasks. simpl.
    rewrite !filter_cons_True by reflexivity. simpl.
    assert (Hy : (now - 86400 <? now) = true) by (apply Z.ltb_lt; lia).
    assert (Ht : (now + 86400 <? now) = false) by (apply Z.ltb_ge; lia).
    unfold is_overdue; simpl. rewrite Hy, Ht. simpl.
    repeat split.
Qed.

(** C9: [total] is not the number of the owner's tasks: an owner with
    1001 stored tasks gets [total = 1000], since the tasks are read with
    [to_list(length=1000)]. *)
Lemma task_statistics_total_counterexample :
  exists st,
    fst (get_task_statistics 1 0 (mkDb [] (many_tasks 1 1001) ∅)) = Ok st /\
    total st = 1000%nat /\
    length (owner_tasks 1 (mkDb [] (many_tasks 1 1001) ∅)) = 1001%nat.
Proof.
  exists (stats_of 0 (take STATS_FETCH_LIMIT
                        (owner_tasks 1 (mkDb [] (many_tasks 1 1001) ∅)))).
  split; [reflexivity|]. split; vm_compute; reflexivity.
Qed.

(** C10: the statistics never count more than 1000 tasks, and once an
    owner has 1000 stored tasks, tasks stored after them (of that owner or
    any other) change none of the statistics. *)
Theorem task_statistics_first_1000 (uid : Z) (now : time) (s : db)
    (extra : list task_doc) :
  (exists st, fst (get_task_statistics uid now s) = Ok st /\
              (total st <= 1000)%nat) /\
  ((1000 <= length (owner_tasks uid s))%nat ->
   fst (get_task_statistics uid now (mkDb (users s) (tasks s ++ extra) (counters s))) =
   fst (get_task_statistics uid now s)).
Proof.
  split.
  - eexists. split; [reflexivity|]. simpl. rewrite length_take.
    unfold STATS_FETCH_LIMIT. lia.
  - intros Hlen. simpl. f_equal. f_equal.
    unfold owner_tasks. simpl. rewrite filter_app, take_app_le; [reflexivity|].
    unfold owner_tasks in Hlen. unfold STATS_FETCH_LIMIT. exact Hlen.
Qed.

Lemma task_statistics_first_1000_witness :
  (exists st, fst (get_task_statistics 1 0 (mkDb [] (many_tasks 1 1000) ∅)) = Ok st /\
              (total st <= 1000)%nat) /\
  fst (get_task_statistics 1 0 (mkDb [] (many_tasks 1 1000 ++ many_tasks 1 5) ∅)) =
  fst (get_task_statistics 1 0 (mkDb [] (many_tasks 1 1000) ∅)).
Proof.
  destruct (task_statistics_first_1000 1 0 (mkDb [] (many_tasks 1 1000) ∅)
              (many_tasks 1 5)) as [H1 H2].
  split; [exact H1|]. apply H2. apply Nat.leb_le. vm_compute. reflexivity.
Defined.

(** * Further properties of the code *)

(** ** List lemmas for the collection operations *)

Lemma map_update_first {A B} (h : A -> B) (p : A -> bool) (f : A -> A) (l : list A) :
  (forall x, h (f x) = h x) -> List.map h (update_first p f l) = List.map h l.
Proof.
  intros Hf. induction l as [|x l IH]; simpl; [reflexivity|].
  destruct (p x); simpl; rewrite ?Hf, ?IH; reflexivity.
Qed.

Lemma update_first_compose {A} (p : A -> bool) (f g : A -> A) (l : list A) :
  (forall x, p (f x) = p x) ->
  update_first p g (update_first p f l) = update_first p (fun x => g (f x)) l.
Proof.
  intros Hf. induction l as [|x l IH]; simpl; [reflexivity|].
  destruct (p x) eqn:Hp; simpl.
  - rewrite Hf, Hp. reflexivity.
  - rewrite Hp, IH. reflexivity.
Qed.

Lemma in_delete_first {A} (p : A -> bool) (l : list A) x :
  In x (delete_first p l) -> In x l.
Proof.
  induction l as [|y l IH]; simpl; [auto|].
  destruct (p y); simpl; intuition.
Qed.

Lemma find_none_of_forall {A} (p : A -> bool) (l : list A) :
  (forall x, In x l -> p x = false) -> List.find p l = None.
Proof.
  induction l as [|y l IH]; simpl; intros H; [reflexivity|].
  rewrite H by auto. apply IH. auto.
Qed.

Lemma find_delete_first_ids (tid : Z) (l : list task_doc) :
  NoDup (List.map t_id l) -> List.find (has_id tid) (delete_first (has_id tid) l) = None.
Proof.
  induction l as [|x l IH]; simpl; intros Hnd; [reflexivity|].
  apply NoDup_cons in Hnd as [Hx Hnd].
  destruct (has_id tid x) eqn:Hp.
  - apply find_none_of_forall. intros y Hy. unfold has_id in *.
    apply bool_decide_eq_false_2. intros Heq.
    apply bool_decide_eq_true_1 in Hp. apply Hx, list_elem_of_In, in_map_iff.
    exists y. split; [congruence|exact Hy].
  - simpl. rewrite Hp. apply IH, Hnd.
Qed.

(** ** Deleting a task *)

(** X: when task ids are unique, [TaskService.delete_task] removes the
    task: it reports [True] when a task had the id, after which
    [TaskService.get_task] finds none, and [False] with the database
    unchanged when none had it. *)
Theorem delete_task_then_get_none (tid : Z) (s : db) :
  NoDup (List.map t_id (tasks s)) ->
  match delete_task tid s with
  | (Ok true, s') => fst (get_task tid s') = Ok None
  | (Ok false, s') => s' = s /\ fst (get_task tid s) = Ok None
  | (Err _, _) => False
  end.
Proof.
  intros Hnd. unfold delete_task.
  destruct (find_task tid s) as [t|] eqn:Hf.
  - unfold get_task, gets, find_task. simpl.
    rewrite find_delete_first_ids by exact Hnd. reflexivity.
  - split; [reflexivity|]. unfold get_task, gets. simpl. rewrite Hf. reflexivity.
Qed.

Lemma delete_task_then_get_none_witness :
  NoDup (List.map t_id (tasks demo_db)) /\
  fst (get_task 1 (snd (delete_task 1 demo_db))) = Ok None.
Proof.
  assert (Hnd : NoDup (List.map t_id (tasks demo_db))).
  { simpl. apply NoDup_singleton. }
  split; [exact Hnd|].
  exact (delete_task_then_get_none 1 demo_db Hnd).
Defined.

(** ** Partial updates compose *)

Lemma update_task_state tid upd now s :
  snd (update_task tid upd now s) =
  match find_task tid s with
  | None => s
  | Some _ => mkDb (users s) (update_first (has_id tid) (apply_task_update upd now)
                                           (tasks s)) (counters s)
  end.
Proof.
  unfold update_task. destruct (find_task tid s); [destruct (Task_of_doc _)|];
    reflexivity.
Qed.

Lemma apply_task_update_twice u1 u2 now1 now2 d :
  apply_task_update u2 now2 (apply_task_update u1 now1 d) =
  apply_task_update (merge_update u1 u2) now2 d.
Proof.
  destruct u1 as [a1 b1 c1 d1 e1], u2 as [a2 b2 c2 d2 e2], d.
  unfold apply_task_update, merge_update; simpl.
  destruct a2, b2, c2, d2, e2; reflexivity.
Qed.

(** X: two successive [update_task] calls on one task have the effect of a
    single call with the merged partial input, a field set by the second
    call overriding the first (per-field last write wins), and the second
    call's [updated_at]. *)
Theorem update_task_twice (tid : Z) (u1 u2 : TaskUpdate) (now1 now2 : time)
    (s : db) :
  update_task tid u2 now2 (snd (update_task tid u1 now1 s)) =
  update_task tid (merge_update u1 u2) now2 s.
Proof.
  rewrite update_task_state.
  destruct (find_task tid s) as [d|] eqn:Hf.
  - unfold update_task at 1, find_task at 1. simpl.
    rewrite find_update_first by (intros []; reflexivity).
    unfold find_task in Hf. rewrite Hf. simpl.
    rewrite update_first_compose by (intros []; reflexivity).
    rewrite apply_task_update_twice.
    unfold update_task, find_task. rewrite Hf.
    rewrite (update_first_ext _ (fun x => apply_task_update u2 now2
                                    (apply_task_update u1 now1 x))
               (apply_task_update (merge_update u1 u2) now2))
      by (intros; apply apply_task_update_twice).
    reflexivity.
  - unfold update_task. rewrite Hf. reflexivity.
Qed.

(** ** Task creation and the id invariant *)

Lemma create_task_run td uid now s :
  let i := default 0 (counters s !! "tasks") + 1 in
  create_task td uid now s =
    match Task_of_doc (new_task_doc td i uid now) with
    | Ok t => (Ok t, mkDb (users s) (tasks s ++ [new_task_doc td i uid now])
                          (<[ "tasks" := i ]> (counters s)))
    | Err e => (Err e, mkDb (users s) (tasks s) (<[ "tasks" := i ]> (counters s)))
    end.
Proof.
  cbv zeta. unfold new_task_doc, create_task, next_id, bindM, lift, modify, ret,
    insert_task. simpl. destruct (Task_of_doc _); reflexivity.
Qed.

Lemma find_app_r {A} (p : A -> bool) (l k : list A) :
  (forall y, In y l -> p y = false) -> List.find p (l ++ k) = List.find p k.
Proof.
  induction l as [|x l IH]; simpl; intros H; [reflexivity|].
  rewrite H by auto. apply IH. auto.
Qed.

Lemma NoDup_map_update_first_ids (tid : Z) (f : task_doc -> task_doc) l :
  (forall x, t_id (f x) = t_id x) ->
  List.map t_id (update_first (has_id tid) f l) = List.map t_id l.
Proof. apply map_update_first. Qed.

Lemma NoDup_map_delete_first {A B} (h : A -> B) (p : A -> bool) (l : list A) :
  NoDup (List.map h l) -> NoDup (List.map h (delete_first p l)).
Proof.
  induction l as [|x l IH]; simpl; intros Hnd; [exact Hnd|].
  apply NoDup_cons in Hnd as [Hx Hnd].
  destruct (p x); simpl; [exact Hnd|].
  apply NoDup_cons. split; [|apply IH, Hnd].
  intros Hin. apply Hx. apply list_elem_of_In in Hin. apply list_elem_of_In.
  apply in_map_iff in Hin as (y & Hy & Hiny). apply in_map_iff.
  exists y. split; [exact Hy|]. eapply in_delete_first; exact Hiny.
Qed.

(** X: [TaskService.create_task] draws the id one above the [tasks]
    counter (positive) and validates the new task (owned by [uid], status
    [pending], [created_at = updated_at = now]); if it validates it is
    stored and returned, and when the id invariant holds
    [TaskService.get_task] reads it back at once; if not, only the counter
    has moved. *)
Theorem create_task_then_get (td : TaskCreate) (uid : Z) (now : time) (s : db) :
  tasks_inv s ->
  let i := default 0 (counters s !! "tasks") + 1 in
  0 < i /\
  match Task_of_doc (new_task_doc td i uid now) with
  | Ok t =>
      fst (create_task td uid now s) = Ok t /\
      fst (get_task i (snd (create_task td uid now s))) =
        Ok (Some (new_task_doc td i uid now))
  | Err e =>
      create_task td uid now s =
        (Err e, mkDb (users s) (tasks s) (<[ "tasks" := i ]> (counters s)))
  end.
Proof.
  intros (Hc & _ & Hle) i. split; [lia|].
  rewrite create_task_run. fold i.
  destruct (Task_of_doc (new_task_doc td i uid now)) as [t|e]; [|reflexivity].
  split; [reflexivity|].
  unfold get_task, gets, find_task. simpl.
  rewrite find_app_r.
  - simpl. unfold has_id. simpl. rewrite bool_decide_eq_true_2 by reflexivity.
    reflexivity.
  - intros y Hy. rewrite List.Forall_forall in Hle. specialize (Hle y Hy).
    unfold has_id. apply bool_decide_eq_false_2. unfold i. lia.
Qed.

Lemma create_task_then_get_witness :
  tasks_inv demo_db_counted /\
  fst (get_task 2 (snd (create_task (mkTaskCreate "T2" None HIGH None) 1 7
                          demo_db_counted))) =
    Ok (Some (new_task_doc (mkTaskCreate "T2" None HIGH None) 2 1 7)).
Proof.
  assert (Hinv : tasks_inv demo_db_counted).
  { split; [vm_compute; intros H; discriminate H|].
    split; [apply NoDup_singleton|].
    repeat constructor. vm_compute. intros H; discriminate H. }
  split; [exact Hinv|].
  exact (proj2 (proj2 (create_task_then_get (mkTaskCreate "T2" None HIGH None)
                         1 7 demo_db_counted Hinv))).
Defined.

(** X: [create_task], [update_task] and [delete_task] keep the id
    invariant: ids stay unique and bounded by the [tasks] counter. *)
Theorem tasks_inv_preserved (s : db) (td : TaskCreate) (uid tid : Z)
    (upd : TaskUpdate) (now : time) :
  tasks_inv s ->
  tasks_inv (snd (create_task td uid now s)) /\
  tasks_inv (snd (update_task tid upd now s)) /\
  tasks_inv (snd (delete_task tid s)).
Proof.
  intros (Hc & Hnd & Hle). split; [|split].
  - rewrite create_task_run. cbv zeta.
    destruct (Task_of_doc _); unfold tasks_inv; simpl;
      rewrite lookup_insert_eq; simpl; (split; [lia|]);
      [|split; [exact Hnd|];
        rewrite List.Forall_forall in *; intros y Hy; specialize (Hle y Hy); lia].
    split.
    + rewrite map_app. apply NoDup_app. split; [exact Hnd|]. split.
      * intros x Hx Hx'. simpl in Hx'. apply list_elem_of_singleton in Hx'.
        subst x. apply list_elem_of_In, in_map_iff in Hx as (y & Hy & Hiny).
        rewrite List.Forall_forall in Hle. specialize (Hle y Hiny). simpl in Hy. lia.
      * apply NoDup_singleton.
    + apply List.Forall_forall. intros y Hy. apply in_app_or in Hy as [Hy|[<-|[]]].
      * rewrite List.Forall_forall in Hle. specialize (Hle y Hy). lia.
      * simpl. lia.
  - rewrite update_task_state. destruct (find_task tid s); [|split; auto].
    unfold tasks_inv. simpl. split; [exact Hc|]. split.
    + rewrite NoDup_map_update_first_ids by (intros []; reflexivity). exact Hnd.
    + rewrite List.Forall_forall in *. intros y Hy.
      assert (Hm : In (t_id y) (List.map t_id (tasks s))).
      { rewrite <- (NoDup_map_update_first_ids tid (apply_task_update upd now))
          by (intros []; reflexivity).
        apply in_map, Hy. }
      apply in_map_iff in Hm as (z & Hz & Hinz). rewrite <- Hz. apply Hle, Hinz.
  - unfold delete_task. destruct (find_task tid s); [|split; auto].
    unfold tasks_inv. simpl. split; [exact Hc|]. split.
    + apply NoDup_map_delete_first, Hnd.
    + rewrite List.Forall_forall in *. intros y Hy. apply Hle.
      eapply in_delete_first; exact Hy.
Qed.

Lemma tasks_inv_preserved_witness :
  tasks_inv demo_db_counted /\
  tasks_inv (snd (create_task (mkTaskCreate "T2" None HIGH None) 1 7 demo_db_counted)).
Proof.
  assert (Hinv : tasks_inv demo_db_counted).
  { split; [vm_compute; intros H; discriminate H|].
    split; [apply NoDup_singleton|].
    repeat constructor. vm_compute. intros H; discriminate H. }
  split; [exact Hinv|].
  exact (proj1 (tasks_inv_preserved demo_db_counted (mkTaskCreate "T2" None HIGH None)
                  1 1 (mk_TaskUpdate []) 7 Hinv)).
Defined.

(** ** Listing and pagination *)

Lemma in_take_drop {A} (n k : nat) (l : list A) x :
  In x (take n (drop k l)) -> In x l.
Proof.
  intros H. rewrite <- (firstn_skipn k l). apply in_or_app. right.
  rewrite <- (firstn_skipn n (drop k l)). apply in_or_app. left. exact H.
Qed.

(** X: [TaskService.get_user_tasks] never writes to the database and
    returns at most [limit] tasks, each owned by [uid] and matching the
    [status] and [priority] filters that were given. *)
Theorem get_user_tasks_filtered (uid : Z) (st : option TaskStatus)
    (pr : option Priority) (skip limit : nat) (s : db) :
  (1 <= limit)%nat ->
  snd (get_user_tasks uid st pr skip limit s) = s /\
  exists ts, fst (get_user_tasks uid st pr skip limit s) = Ok ts /\
   (length ts <= limit)%nat /\
   Forall (fun t => t_user_id t = uid /\
                    (forall v, st = Some v -> t_status t = Some v) /\
                    (forall v, pr = Some v -> t_priority t = Some v)) ts.
Proof.
  intros _. split; [reflexivity|]. eexists. split; [reflexivity|]. split.
  - rewrite length_take. lia.
  - apply List.Forall_forall. intros t Ht.
    apply in_take_drop, filter_In in Ht as [_ Hq].
    unfold task_query in Hq. apply andb_prop in Hq as [Hq Hp].
    apply andb_prop in Hq as [Hu Hs].
    split; [exact (bool_decide_eq_true_1 _ Hu)|]. split.
    + intros v ->. exact (bool_decide_eq_true_1 _ Hs).
    + intros v ->. exact (bool_decide_eq_true_1 _ Hp).
Qed.

Lemma get_user_tasks_filtered_witness :
  (1 <= 20)%nat /\
  snd (get_user_tasks 1 None (Some MEDIUM) 0 20 demo_db) = demo_db.
Proof.
  split; [lia|].
  exact (proj1 (get_user_tasks_filtered 1 None (Some MEDIUM) 0 20 demo_db
                  ltac:(lia))).
Defined.

(** X: pages of [TaskService.get_user_tasks] fit together: with the same
    filters, the page at [skip] of size [a] followed by the page at
    [skip + a] of size [b] is the page at [skip] of size [a + b]. *)
Theorem get_user_tasks_pages (uid : Z) (st : option TaskStatus)
    (pr : option Priority) (skip a b : nat) (s : db) :
  (1 <= a)%nat -> (1 <= b)%nat ->
  exists p1 p2,
    fst (get_user_tasks uid st pr skip a s) = Ok p1 /\
    fst (get_user_tasks uid st pr (skip + a) b s) = Ok p2 /\
    fst (get_user_tasks uid st pr skip (a + b) s) = Ok (p1 ++ p2).
Proof.
  intros _ _. do 2 eexists. split; [reflexivity|]. split; [reflexivity|]. simpl.
  rewrite <- drop_drop, take_take_drop. reflexivity.
Qed.

Lemma get_user_tasks_pages_witness :
  (1 <= 1)%nat /\
  exists p1 p2,
    fst (get_user_tasks 1 None None 0 1 demo_db) = Ok p1 /\
    fst (get_user_tasks 1 None None (0 + 1) 1 demo_db) = Ok p2 /\
    fst (get_user_tasks 1 None None 0 (1 + 1) demo_db) = Ok (p1 ++ p2).
Proof.
  split; [lia|].
  apply (get_user_tasks_pages 1 None None 0 1 1 demo_db); lia.
Defined.

(** ** Overdue tasks and the summary *)

Lemma count_where_le {A} (p : A -> bool) (l : list A) :
  (count_where p l <= length l)%nat.
Proof.
  induction l as [|x l IH]; [reflexivity|].
  rewrite count_where_cons. simpl. destruct (p x); lia.
Qed.

Lemma overdue_of_owner (uid : Z) (now : time) (l : list task_doc) :
  count_where (is_overdue now) (filter (fun t => t_user_id t = uid) l) =
  length (List.filter (fun t => bool_decide (t_user_id t = uid) && is_overdue now t) l).
Proof.
  induction l as [|t l IH]; [reflexivity|].
  rewrite filter_cons. simpl. destruct (decide (t_user_id t = uid)) as [Hu|Hu].
  - rewrite count_where_cons, IH, (bool_decide_eq_true_2 _ Hu). simpl.
    destruct (is_overdue now t); reflexivity.
  - rewrite IH, (bool_decide_eq_false_2 _ Hu). reflexivity.
Qed.

(** X: [TaskService.get_overdue_tasks] reads without writing and returns at
    most 100 tasks, each owned by the given user, with a due date before
    [now] and a status other than [completed]. *)
Theorem get_overdue_tasks_sound (uid : Z) (now : time) (s : db) :
  snd (get_overdue_tasks uid now s) = s /\
  exists ts, fst (get_overdue_tasks uid now s) = Ok ts /\ (length ts <= 100)%nat /\
    Forall (fun t => t_user_id t = uid /\ t_status t <> Some COMPLETED /\
                     exists due, t_due_date t = Some due /\ due < now) ts.
Proof.
  split; [reflexivity|]. eexists. split; [reflexivity|]. split.
  - rewrite length_take. lia.
  - apply List.Forall_forall. intros t Ht.
    apply (in_take_drop 100 0), filter_In in Ht as [_ Hq].
    apply andb_prop in Hq as [Hu Ho].
    split; [exact (bool_decide_eq_true_1 _ Hu)|].
    unfold is_overdue in Ho. destruct (t_due_date t) as [due|]; [|discriminate].
    apply andb_prop in Ho as [Hlt Hc]. split.
    + intros Heq. rewrite (bool_decide_eq_true_2 _ Heq) in Hc. discriminate.
    + exists due. split; [reflexivity|]. apply Z.ltb_lt, Hlt.
Qed.

(** X: as long as an owner has at most 1000 tasks of which at most 100 are
    overdue, the overdue list has exactly as many tasks as the statistics'
    [overdue_count]. *)
Theorem overdue_list_matches_statistics (uid : Z) (now : time) (s : db) :
  (length (owner_tasks uid s) <= 1000)%nat ->
  (count_where (is_overdue now) (owner_tasks uid s) <= 100)%nat ->
  exists ts st,
    fst (get_overdue_tasks uid now s) = Ok ts /\
    fst (get_task_statistics uid now s) = Ok st /\
    length ts = overdue_count st.
Proof.
  intros Hn Ho. do 2 eexists. split; [reflexivity|]. split; [reflexivity|].
  simpl. unfold stats_of. simpl.
  destruct (stats_fold_counts now None None
              (take STATS_FETCH_LIMIT (owner_tasks uid s)) (mkAcc [] [] 0))
    as (_ & _ & H3).
  rewrite H3. simpl.
  rewrite (take_ge (owner_tasks uid s) STATS_FETCH_LIMIT) by exact Hn.
  unfold owner_tasks in *. rewrite overdue_of_owner in *.
  rewrite take_ge by exact Ho. reflexivity.
Qed.

Lemma overdue_list_matches_statistics_witness :
  exists ts st,
    fst (get_overdue_tasks 1 10 (mkDb [] [mk_task 1 1 PENDING LOW (Some 5);
                                          mk_task 2 1 COMPLETED LOW (Some 5)] ∅)) = Ok ts /\
    fst (get_task_statistics 1 10 (mkDb [] [mk_task 1 1 PENDING LOW (Some 5);
                                            mk_task 2 1 COMPLETED LOW (Some 5)] ∅)) = Ok st /\
    length ts = overdue_count st.
Proof.
  apply overdue_list_matches_statistics; vm_compute; lia.
Defined.

Lemma status_counts_le (ts : list task_doc) :
  (count_where (fun t => bool_decide (t_status t = Some PENDING)) ts +
   count_where (fun t => bool_decide (t_status t = Some IN_PROGRESS)) ts +
   count_where (fun t => bool_decide (t_status t = Some COMPLETED)) ts <= length ts)%nat.
Proof.
  induction ts as [|t ts IH]; [reflexivity|].
  rewrite !count_where_cons. simpl.
  repeat case_bool_decide; try congruence; lia.
Qed.

(** X: the dashboard summary reads without writing; its [pending],
    [in_progress] and [completed] counts add up to at most [total] (tasks
    cancelled or without a status count in none of them), [overdue] is at
    most [total], and [total] is at most 1000. *)
Theorem tasks_summary_bounded (uid : Z) (now : time) (s : db) :
  snd (get_tasks_summary uid now s) = s /\
  exists sm, fst (get_tasks_summary uid now s) = Ok sm /\
    (sm_pending sm + sm_in_progress sm + sm_completed sm <= sm_total sm)%nat /\
    (sm_overdue sm <= sm_total sm)%nat /\ (sm_total sm <= 1000)%nat.
Proof.
  split; [reflexivity|]. eexists. split; [reflexivity|]. simpl.
  unfold stats_of. simpl.
  set (ts := take STATS_FETCH_LIMIT (owner_tasks uid s)).
  destruct (stats_fold_counts now (Some PENDING) None ts (mkAcc [] [] 0)) as (P & _ & O).
  destruct (stats_fold_counts now (Some IN_PROGRESS) None ts (mkAcc [] [] 0)) as (I & _).
  destruct (stats_fold_counts now (Some COMPLETED) None ts (mkAcc [] [] 0)) as (C & _).
  simpl in P, I, C, O. rewrite P, I, C, O.
  split; [apply status_counts_le|]. split; [apply count_where_le|].
  unfold ts. rewrite length_take. unfold STATS_FETCH_LIMIT. lia.
Qed.

(** ** Authentication *)

Lemma NoDup_map_snoc {A B} (h : A -> B) (l : list A) x :
  NoDup (List.map h l) -> (forall y, In y l -> h y <> h x) ->
  NoDup (List.map h (l ++ [x])).
Proof.
  intros Hnd Hne. rewrite map_app. apply NoDup_app. split; [exact Hnd|].
  split; [|apply NoDup_singleton].
  intros b Hb Hb'. simpl in Hb'. apply list_elem_of_singleton in Hb'. subst b.
  apply list_elem_of_In, in_map_iff in Hb as (y & Hy & Hiny).
  exact (Hne y Hiny Hy).
Qed.

Lemma set_last_login_keys (i : Z) (t : time) (s : db) :
  List.map user_key (users (set_last_login i t s)) = List.map user_key (users s) /\
  tasks (set_last_login i t s) = tasks s /\
  counters (set_last_login i t s) = counters s.
Proof.
  split; [|split; reflexivity]. apply map_update_first. intros []; reflexivity.
Qed.

Section AuthProofs.

Variable hash_password : string -> string.
Variable verify_password : string -> string -> bool.
Variable jwt_encode : TokenPayload -> string.
Variable jwt_decode : time -> string -> decoded.

Lemma authenticate_user_run (e pw : string) (now : time) (s : db) :
  authenticate_user verify_password e pw now s =
  match List.find (has_email e) (users s) with
  | Some u => if verify_password pw (u_hashed_password u)
              then (Ok (Some (user_of_db u)), set_last_login (u_id u) now s)
              else (Ok None, s)
  | None => (Ok None, s)
  end.
Proof.
  unfold authenticate_user, get_user_by_email, gets, bindM, has_email.
  destruct (List.find _ (users s)) as [u|]; [|reflexivity].
  destruct (verify_password _ _); reflexivity.
Qed.

(** X: [POST /api/auth/login] either answers 401 and leaves the database
    unchanged, or the email matches a stored user whose password verifies;
    then [last_login] of that user's id is set to [now] whatever follows:
    an active user gets a bearer token for its id valid 3600 seconds, a
    disabled one gets 403 with [last_login] already written. *)
Theorem login_outcomes (e pw : string) (now : time) (s : db) :
  login verify_password jwt_encode e pw now s =
    (Err (HTTPException 401 "Invalid email or password"), s) \/
  exists u, List.find (has_email e) (users s) = Some u /\
    verify_password pw (u_hashed_password u) = true /\
    snd (login verify_password jwt_encode e pw now s) = set_last_login (u_id u) now s /\
    fst (login verify_password jwt_encode e pw now s) =
      if u_is_active u
      then Ok (mkToken (jwt_encode (mkTokenPayload (u_id u) (now + 3600) now))
                       "bearer" 3600)
      else Err (HTTPException 403 "User account is disabled").
Proof.
  unfold login, bindM. rewrite authenticate_user_run.
  destruct (List.find (has_email e) (users s)) as [u|]; [|left; reflexivity].
  destruct (verify_password pw (u_hashed_password u)) eqn:Hv; [|left; reflexivity].
  right. exists u. split; [reflexivity|]. split; [exact Hv|].
  unfold create_access_token, ret, raise. simpl.
  destruct (u_is_active u); split; reflexivity.
Qed.

(** X: the two login endpoints ([/login] and [/token]) change no stored
    user field other than [last_login], and no task or counter. *)
Theorem login_endpoints_only_last_login (e pw : string) (now : time) (s : db) :
  (List.map user_key (users (snd (login verify_password jwt_encode e pw now s))) =
     List.map user_key (users s) /\
   tasks (snd (login verify_password jwt_encode e pw now s)) = tasks s /\
   counters (snd (login verify_password jwt_encode e pw now s)) = counters s) /\
  (List.map user_key
     (users (snd (login_for_access_token verify_password jwt_encode e pw now s))) =
     List.map user_key (users s) /\
   tasks (snd (login_for_access_token verify_password jwt_encode e pw now s)) = tasks s /\
   counters (snd (login_for_access_token verify_password jwt_encode e pw now s)) =
     counters s).
Proof.
  unfold login, login_for_access_token, bindM. rewrite authenticate_user_run.
  destruct (List.find (has_email e) (users s)) as [u|];
    [|split; repeat split; reflexivity].
  destruct (verify_password pw (u_hashed_password u));
    [|split; repeat split; reflexivity].
  simpl. split; [destruct (u_is_active u)|]; simpl; apply set_last_login_keys.
Qed.

(** X: a successful registration stores one new user, active and not an
    admin, with no [last_login] and the next id of the [users] counter,
    returns it without the digest, and the new account is found at once by
    its email and by its username. *)
Theorem register_creates_active_user (ud : UserCreate) (now : time) (s s' : db)
    (u : User) :
  register hash_password ud now s = (Ok u, s') ->
  let i := default 0 (counters s !! "users") + 1 in
  u = user_of_db (stored_user hash_password ud i now) /\
  is_active u = true /\ is_admin u = false /\ last_login u = None /\
  users s' = users s ++ [stored_user hash_password ud i now] /\ tasks s' = tasks s /\
  fst (get_user_by_email (uc_email ud) s') =
    Ok (Some (stored_user hash_password ud i now)) /\
  fst (get_user_by_username (uc_username ud) s') = Ok (Some u).
Proof.
  unfold register, get_user_by_email, get_user_by_username, gets, bindM. simpl.
  destruct (List.find (fun u => bool_decide (u_email u = uc_email ud)) (users s))
    eqn:He; [discriminate|].
  destruct (List.find (fun u => bool_decide (u_username u = uc_username ud)) (users s))
    eqn:Hu; [discriminate|].
  simpl. rewrite create_user_run. intros [= <- <-]. simpl.
  repeat split.
  - rewrite find_app_r by (intros y Hy; exact (find_none _ _ He y Hy)).
    simpl. rewrite bool_decide_eq_true_2 by reflexivity. reflexivity.
  - rewrite find_app_r by (intros y Hy; exact (find_none _ _ Hu y Hy)).
    simpl. rewrite bool_decide_eq_true_2 by reflexivity. reflexivity.
Qed.

(** X: registration keeps the user invariant: emails, usernames and ids
    stay unique and no id exceeds the [users] counter. *)
Theorem register_preserves_users_inv (ud : UserCreate) (now : time) (s : db) :
  users_inv s -> users_inv (snd (register hash_password ud now s)).
Proof.
  intros (Hem & Hun & Hid & Hle).
  unfold register, get_user_by_email, get_user_by_username, gets, bindM.
  cbn -[create_user].
  destruct (List.find (fun u => bool_decide (u_email u = uc_email ud)) (users s))
    eqn:He; [repeat split; assumption|].
  destruct (List.find (fun u => bool_decide (u_username u = uc_username ud)) (users s))
    eqn:Hu; [repeat split; assumption|].
  cbn -[create_user]. rewrite create_user_run. unfold users_inv. simpl.
  rewrite lookup_insert_eq. simpl.
  rewrite List.Forall_forall in Hle.
  split; [|split; [|split]].
  - apply NoDup_map_snoc; [exact Hem|]. intros y Hy Heq.
    pose proof (find_none _ _ He y Hy) as Hf. cbv beta in Hf. simpl in Heq.
    rewrite bool_decide_eq_true_2 in Hf by exact Heq. discriminate.
  - apply NoDup_map_snoc; [exact Hun|]. intros y Hy Heq.
    pose proof (find_none _ _ Hu y Hy) as Hf. cbv beta in Hf. simpl in Heq.
    rewrite bool_decide_eq_true_2 in Hf by exact Heq. discriminate.
  - apply NoDup_map_snoc; [exact Hid|]. intros y Hy Heq.
    specialize (Hle y Hy). simpl in Heq. lia.
  - apply List.Forall_forall. intros y Hy. apply in_app_or in Hy as [Hy|[<-|[]]].
    + specialize (Hle y Hy). lia.
    + simpl. lia.
Qed.

(** [find_one({"id": user_id})] with a [str] [user_id] matches no stored
    user: every stored id is an [int], and BSON equality does not relate a
    string to a number. *)
Lemma get_user_by_str_none (v : string) (s : db) :
  get_user_by_id (PStr v) s = (Ok None, s).
Proof.
  unfold get_user_by_id, gets.
  rewrite find_none_of_forall; [reflexivity|].
  intros u _. apply bool_decide_eq_false_2. discriminate.
Qed.

Lemma get_current_user_401 (now : time) (token : string) (s : db) :
  get_current_user jwt_decode now token s =
    (Err (HTTPException 401 "Could not validate credentials"), s).
Proof.
  unfold get_current_user, credentials_exception, raise, bindM.
  destruct (jwt_decode now token) as [|[v|]]; [reflexivity| |reflexivity].
  rewrite get_user_by_str_none. reflexivity.
Qed.

(** X: the authentication guard answers 401 [Could not validate
    credentials] to every token at every instant, without writing to the
    database: a payload either fails python-jose's checks or carries a
    [str] subject, which [find_one({"id": user_id})] never matches. *)
Theorem guard_rejects_every_token (now : time) (token : string) (s : db) :
  get_current_user jwt_decode now token s =
    (Err (HTTPException 401 "Could not validate credentials"), s).
Proof. apply get_current_user_401. Qed.

(** C2: a token issued by [create_access_token] for any user never
    validates: its [sub] is the [int] [user.id], which python-jose's
    [jwt.decode] rejects ("Subject must be a string", a [JWTError]), and
    no [str] subject matches a stored id either. So at every instant,
    before or after [exp], [get_current_user] answers 401 and [GET
    /api/auth/me] and [POST /api/auth/refresh] fail with it; validation
    never returns the user's id. *)
Theorem issued_token_never_validates (u : User) (iat now : time) (s0 s : db) :
  exists tk,
    fst (create_access_token jwt_encode u iat s0) = Ok tk /\
    access_token tk =
      jwt_encode (mkTokenPayload (id u) (iat + ACCESS_TOKEN_EXPIRE_MINUTES * 60) iat) /\
    get_current_user jwt_decode now (access_token tk) s =
      (Err (HTTPException 401 "Could not validate credentials"), s) /\
    get_current_user_info jwt_decode now (access_token tk) s =
      (Err (HTTPException 401 "Could not validate credentials"), s) /\
    refresh_token jwt_decode jwt_encode now (access_token tk) s =
      (Err (HTTPException 401 "Could not validate credentials"), s).
Proof.
  eexists. split; [reflexivity|]. split; [reflexivity|].
  split; [apply get_current_user_401|]. split; [apply get_current_user_401|].
  unfold refresh_token, bindM. rewrite get_current_user_401. reflexivity.
Qed.

End AuthProofs.

Lemma register_creates_active_user_witness :
  register demo_hash alice 5 empty_db =
    (Ok (user_of_db (stored_user demo_hash alice 1 5)),
     mkDb [stored_user demo_hash alice 1 5] [] (<["users" := 1]> ∅)) /\
  fst (get_user_by_email "alice@x.com"
         (mkDb [stored_user demo_hash alice 1 5] [] (<["users" := 1]> ∅))) =
    Ok (Some (stored_user demo_hash alice 1 5)).
Proof.
  assert (H : register demo_hash alice 5 empty_db =
    (Ok (user_of_db (stored_user demo_hash alice 1 5)),
     mkDb [stored_user demo_hash alice 1 5] [] (<["users" := 1]> ∅)))
    by (vm_compute; reflexivity).
  split; [exact H|].
  exact (proj1 (proj2 (proj2 (proj2 (proj2 (proj2 (proj2
           (register_creates_active_user demo_hash alice 5 empty_db _ _ H)))))))).
Defined.

Lemma register_preserves_users_inv_witness :
  users_inv demo_db_counted /\
  users_inv (snd (register demo_hash alice 5 demo_db_counted)).
Proof.
  assert (Hinv : users_inv demo_db_counted).
  { unfold users_inv. split; [|split; [|split]].
    - apply (bool_decide_unpack _). vm_compute. reflexivity.
    - apply (bool_decide_unpack _). vm_compute. reflexivity.
    - apply (bool_decide_unpack _). vm_compute. reflexivity.
    - apply List.Forall_forall. intros u Hu. simpl in Hu.
      repeat destruct Hu as [<-|Hu]; [vm_compute; discriminate..|destruct Hu]. }
  split; [exact Hinv|].
  exact (register_preserves_users_inv demo_hash alice 5 demo_db_counted Hinv).
Defined.
